(** * Technical indicators of the stock-analysis dashboard

    Verification model of [Stock_Analysis/streamlit_app.py]: the RSI helper
    [calculate_rsi], the two rolling means of the "Start Analysis" handler,
    and the trend and RSI-status labels of the dashboard.

    Numbers.  A pandas [float64] cell is modelled by [fval]: an exact
    rational, or one of the three special values not-a-number, plus infinity
    and minus infinity.  pandas uses not-a-number as its missing-value
    marker, so the same [NaN] stands for "no value".  Rounding is not
    modelled: finite arithmetic is exact.  The sign of a zero is not
    modelled either; the only place where it could matter in this program
    is the divisor of [gain / loss], and [100 - 100 / (1 + rs)] is 100 for
    [rs] = plus or minus infinity alike.

    What is stated.  The exact numbers of the model are the program's
    numbers only up to [float64] rounding, and a [float64] result can
    leave the range where the exact one does not.  So the theorems stated
    for the program are about what does not depend on either: which cells
    hold a value, comparisons of given numbers, and the values 0 and 100
    that the formula reaches exactly.  Where a statement needs the arithmetic to
    stay in range, it assumes close prices of ordinary size
    ([ordinary_prices]) and windows no longer than [window_limit]. *)

From Stdlib Require Import String List Bool Arith ZArith QArith Lia Lqa.
Import ListNotations.

Set Implicit Arguments.

(** ** Floating-point cells *)

Module Float.

Inductive fval : Type :=
| NaN
| PInf
| NInf
| Fin (q : Q).

Definition Qlt_bool (a b : Q) : bool := negb (Qle_bool b a).

Definition is_nan (x : fval) : bool :=
  match x with NaN => true | _ => false end.

Definition is_inf (x : fval) : bool :=
  match x with PInf | NInf => true | _ => false end.

Definition is_finite (x : fval) : bool :=
  match x with Fin _ => true | _ => false end.

(** Unary minus. *)
Definition fneg (x : fval) : fval :=
  match x with
  | NaN => NaN
  | PInf => NInf
  | NInf => PInf
  | Fin q => Fin (- q)
  end.

(** [x + y]: opposite infinities cancel to not-a-number. *)
Definition fadd (x y : fval) : fval :=
  match x, y with
  | NaN, _ | _, NaN => NaN
  | PInf, NInf | NInf, PInf => NaN
  | PInf, _ | _, PInf => PInf
  | NInf, _ | _, NInf => NInf
  | Fin a, Fin b => Fin (a + b)
  end.

(** [x - y]. *)
Definition fsub (x y : fval) : fval := fadd x (fneg y).

(** [x / y] on arrays: a zero divisor raises nothing, it yields an
    infinity of the sign of the dividend, or not-a-number for [0 / 0]. *)
Definition fdiv (x y : fval) : fval :=
  match x, y with
  | NaN, _ | _, NaN => NaN
  | (PInf | NInf), (PInf | NInf) => NaN
  | PInf, Fin b => if Qlt_bool b 0 then NInf else PInf
  | NInf, Fin b => if Qlt_bool b 0 then PInf else NInf
  | Fin _, (PInf | NInf) => Fin 0
  | Fin a, Fin b =>
      if Qeq_bool b 0 then
        if Qeq_bool a 0 then NaN
        else if Qlt_bool 0 a then PInf else NInf
      else Fin (a / b)
  end.

(** [x > y] and [x < y]: every comparison with not-a-number is false. *)
Definition fgt (x y : fval) : bool :=
  match x, y with
  | NaN, _ | _, NaN => false
  | PInf, PInf => false
  | PInf, _ => true
  | _, PInf => false
  | NInf, _ => false
  | Fin _, NInf => true
  | Fin a, Fin b => Qlt_bool b a
  end.

Definition flt (x y : fval) : bool := fgt y x.

(** [has_value x q]: the cell holds a finite number equal to [q]. *)
Definition has_value (x : fval) (q : Q) : Prop :=
  match x with
  | Fin r => r == q
  | _ => False
  end.

End Float.
Export Float.

(** ** pandas Series of floats *)

Module Series.

Definition series : Type := list fval.

(** [s.diff()]: first difference, with no value at position 0. *)
Definition diff (s : series) : series :=
  match s with
  | [] => []
  | _ :: tl =>
      NaN :: map (fun p : fval * fval => fsub (fst p) (snd p)) (combine tl s)
  end.

(** [s > c] and [s < c] against a scalar. *)
Definition gt_scalar (s : series) (c : fval) : list bool :=
  map (fun x => fgt x c) s.

Definition lt_scalar (s : series) (c : fval) : list bool :=
  map (fun x => flt x c) s.

(** [s.where(cond, other)]: keep the cell where [cond] holds, put [other]
    elsewhere. *)
Definition where_ (s : series) (cond : list bool) (other : fval) : series :=
  map (fun p : fval * bool => if snd p then fst p else other)
      (combine s cond).

(** [-s]. *)
Definition neg (s : series) : series := map fneg s.

(** [a / b], cell by cell. *)
Definition div (a b : series) : series :=
  map (fun p : fval * fval => fdiv (fst p) (snd p)) (combine a b).

(** [c + s], [c / s] and [c - s] with a scalar on the left. *)
Definition radd (c : fval) (s : series) : series := map (fadd c) s.
Definition rdiv (c : fval) (s : series) : series := map (fdiv c) s.
Definition rsub (c : fval) (s : series) : series := map (fsub c) s.

(** The rolling aggregation first turns infinities into missing values. *)
Definition prep_value (x : fval) : fval :=
  if is_inf x then NaN else x.

(** Sum and number of the observations (cells that are not missing). *)
Fixpoint sum_obs (l : list fval) : Q :=
  match l with
  | [] => 0
  | Fin q :: tl => q + sum_obs tl
  | _ :: tl => sum_obs tl
  end.

Fixpoint count_obs (l : list fval) : nat :=
  match l with
  | [] => 0%nat
  | Fin _ :: tl => S (count_obs tl)
  | _ :: tl => count_obs tl
  end.

(** Mean of one window with [min_periods = minp]. *)
Definition window_mean (minp : nat) (win : list fval) : fval :=
  let obs := map prep_value win in
  let nobs := count_obs obs in
  if (minp <=? nobs)%nat && (0 <? nobs)%nat
  then Fin (sum_obs obs / inject_Z (Z.of_nat nobs))
  else NaN.

(** The window that ends at position [i]: the last [window] cells of the
    prefix [s[0..i]], fewer when the prefix is shorter. *)
Definition window_at (window : nat) (s : series) (i : nat) : list fval :=
  skipn (S i - window) (firstn (S i) s).

(** [s.rolling(window).mean()]; [min_periods] defaults to [window]. *)
Definition rolling_mean (window : nat) (s : series) : series :=
  map (fun i => window_mean window (window_at window s i))
      (seq 0 (length s)).

(** [s.iloc[-1]]; [None] stands for the IndexError on an empty series. *)
Definition iloc_last (s : series) : option fval :=
  match s with
  | [] => None
  | x :: tl => Some (last tl x)
  end.

End Series.
Export Series.

(** ** The fetched table *)

(** One row of the table after [data[['Date', 'Close', 'Volume']]]: the
    other columns of the download are dropped before anything is
    computed. *)
Record bar : Type := mk_bar {
  Date : Z;
  Close : fval;
  Volume : Z
}.

Definition frame : Type := list bar.

(** [data['Close']]. *)
Definition close_column (data : frame) : series := map Close data.

(** [data.empty]. *)
Definition empty (data : frame) : bool :=
  match data with [] => true | _ => false end.

(** ** Auxiliary function [calculate_rsi] *)

Module RSI.
Section Body.

Variable data : frame.
Variable periods : nat.

Definition delta : series := diff (close_column data).

(** [delta.where(delta > 0, 0)] and [-delta.where(delta < 0, 0)]. *)
Definition gain_terms : series :=
  where_ delta (gt_scalar delta (Fin 0)) (Fin 0).

Definition loss_terms : series :=
  neg (where_ delta (lt_scalar delta (Fin 0)) (Fin 0)).

Definition gain : series := rolling_mean periods gain_terms.

Definition loss : series := rolling_mean periods loss_terms.

Definition rs : series := div gain loss.

Definition calculate_rsi : series :=
  rsub (Fin 100) (rdiv (Fin 100) (radd (Fin 1) rs)).

End Body.
End RSI.
Export RSI.

(** The default of the [periods] argument; the only call uses it. *)
Definition default_periods : nat := 14.

(** ** The "Start Analysis" handler *)

(** The table kept in [st.session_state.data]. *)
Record analysis : Type := mk_analysis {
  rows : frame;
  MA_Short : series;
  MA_Long : series;
  RSI : series
}.

(** The [else] branch of the handler. *)
Definition analyse (data : frame) (ma_short ma_long : nat) : analysis :=
  {| rows := data;
     MA_Short := rolling_mean ma_short (close_column data);
     MA_Long := rolling_mean ma_long (close_column data);
     RSI := calculate_rsi data default_periods |}.

(** What [yf.download] does: it raises, or it returns a table. *)
Inductive download : Type :=
| Raises (e : string)
| Returns (data : frame).

(** The part of the application state the handler touches: the session
    entry and the messages shown with [st.error]. *)
Record app : Type := mk_app {
  session_data : option analysis;
  errors : list string
}.

Definition initial_app : app := {| session_data := None; errors := [] |}.

Definition st_error (msg : string) (st : app) : app :=
  {| session_data := session_data st; errors := errors st ++ [msg] |}.

Definition no_data_message : string :=
  "No data found. Please enter a valid symbol.".

Definition failure_message (e : string) : string :=
  ("An error occurred: " ++ e)%string.

Definition start_analysis
    (fetched : download) (ma_short ma_long : nat) (st : app) : app :=
  match fetched with
  | Raises e => st_error (failure_message e) st
  | Returns data =>
      if empty data then st_error no_data_message st
      else {| session_data := Some (analyse data ma_short ma_long);
              errors := errors st |}
  end.

(** ** The dashboard cards *)

Inductive trend_label : Type := Rise | Drop.

Inductive rsi_label : Type := Overbought | Oversold | Normal.

Definition trend (ma_short_value ma_long_value : fval) : trend_label :=
  if fgt ma_short_value ma_long_value then Rise else Drop.

Definition rsi_status (latest_rsi : fval) : rsi_label :=
  if fgt latest_rsi (Fin 70) then Overbought
  else if flt latest_rsi (Fin 30) then Oversold
  else Normal.

(** What the dashboard section does with the session entry. *)
Inductive cards : Type :=
| NotRendered
| IndexError
| Cards (t : trend_label) (r : rsi_label).

Definition dashboard (st : app) : cards :=
  match session_data st with
  | None => NotRendered
  | Some data_new =>
      match iloc_last (MA_Short data_new),
            iloc_last (MA_Long data_new),
            iloc_last (RSI data_new) with
      | Some ma_short_value, Some ma_long_value, Some latest_rsi =>
          Cards (trend ma_short_value ma_long_value) (rsi_status latest_rsi)
      | _, _, _ => IndexError
      end
  end.

(** ** Reference notions used in the statements *)

(** Every close price is a number. *)
Definition finite_prices (data : frame) : Prop :=
  Forall (fun b => is_finite (Close b) = true) data.

(** The close price at position [j], as a number. *)
Definition close_at (data : frame) (j : nat) : Q :=
  match nth j (close_column data) NaN with
  | Fin q => q
  | _ => 0
  end.

Definition Qsum (l : list Q) : Q := fold_right Qplus 0 l.

(** Arithmetic mean of the close prices at positions [i-p+1 .. i]. *)
Definition mean_of_window (data : frame) (p i : nat) : Q :=
  Qsum (map (close_at data) (seq (S i - p) p)) / inject_Z (Z.of_nat p).

(** All close prices equal the number [c]. *)
Definition flat (c : Q) (data : frame) : Prop :=
  Forall (fun b => has_value (Close b) c) data.

(** Every close price is above the one before it. *)
Definition strictly_increasing (data : frame) : Prop :=
  forall j, (S j < length data)%nat -> close_at data j < close_at data (S j).

(** What the two [where] expressions do to one difference. *)
Definition up (x : fval) : fval := if fgt x (Fin 0) then x else Fin 0.

Definition down (x : fval) : fval :=
  fneg (if flt x (Fin 0) then x else Fin 0).

(** The last line of [calculate_rsi] on one cell of [rs]. *)
Definition rsi_of (x : fval) : fval :=
  fsub (Fin 100) (fdiv (Fin 100) (fadd (Fin 1) x)).

(** The gain and the loss that enter the averages at position [j]; the
    undefined first difference enters as a zero. *)
Definition gain_at (data : frame) (j : nat) : Q :=
  match j with
  | O => 0
  | S k =>
      let d := close_at data (S k) - close_at data k in
      if Qlt_bool 0 d then d else 0
  end.

Definition loss_at (data : frame) (j : nat) : Q :=
  match j with
  | O => - 0
  | S k =>
      let d := close_at data (S k) - close_at data k in
      - (if Qlt_bool d 0 then d else 0)
  end.

Definition avg_of (f : nat -> Q) (w i : nat) : Q :=
  Qsum (map f (seq (S i - w) w)) / inject_Z (Z.of_nat w).

(** ** Sample tables *)

(** Five bars with ups and downs. *)
Definition sample_prices : frame :=
  [ mk_bar 1 (Fin 10) 500; mk_bar 2 (Fin 12) 300; mk_bar 3 (Fin 11) 800;
    mk_bar 4 (Fin 15) 100; mk_bar 5 (Fin 14) 250 ].

(** The same close prices on other days and with other volumes. *)
Definition sample_prices_other_days : frame :=
  [ mk_bar 11 (Fin 10) 7; mk_bar 12 (Fin 12) 0; mk_bar 15 (Fin 11) 42;
    mk_bar 16 (Fin 15) 9000; mk_bar 19 (Fin 14) 1 ].

(** Its first three bars. *)
Definition short_history : frame := firstn 3 sample_prices.

(** Sixty bars of constant close 100.0 and volume 1000. *)
Definition flat_prices : frame :=
  map (fun d => mk_bar (Z.of_nat d) (Fin 100) 1000) (seq 0 60).

(** Sixteen bars with close prices 1, 2, ..., 16. *)
Definition rising_prices : frame :=
  map (fun d => mk_bar (Z.of_nat d) (Fin (inject_Z (Z.of_nat (S d)))) 1000)
      (seq 0 16).

(** ** The rest of the dashboard and the reruns of the script *)

(** The colours chosen beside the two labels. *)
Definition trend_color (ma_short_value ma_long_value : fval) : string :=
  if fgt ma_short_value ma_long_value then "#27ae60" else "#e74c3c".

Definition rsi_color (latest_rsi : fval) : string :=
  if fgt latest_rsi (Fin 70) then "#e74c3c"
  else if flt latest_rsi (Fin 30) then "#27ae60"
  else "#2c3e50".

(** One press of "Start Analysis": what the download did and the two
    periods of the sidebar at that moment. *)
Record request : Type := mk_request {
  fetched : download;
  short_period : nat;
  long_period : nat
}.

Definition press (st : app) (r : request) : app :=
  start_analysis (fetched r) (short_period r) (long_period r) st.

(** The session entry survives from one run of the script to the next. *)
Definition reruns (requests : list request) (st : app) : app :=
  fold_left press requests st.

(** ** More reference notions *)

(** The message a request makes the handler show, if any. *)
Definition shown (r : request) : list string :=
  match fetched r with
  | Raises e => [failure_message e]
  | Returns data => if empty data then [no_data_message] else []
  end.

(** The table a request makes the handler store, if any. *)
Definition stored (r : request) : option analysis :=
  match fetched r with
  | Raises _ => None
  | Returns data =>
      if empty data then None
      else Some (analyse data (short_period r) (long_period r))
  end.

(** The table of the latest request that stored one. *)
Fixpoint latest_stored
    (requests : list request) (before : option analysis) : option analysis :=
  match requests with
  | [] => before
  | r :: tl =>
      latest_stored tl
        (match stored r with Some a => Some a | None => before end)
  end.

(** The stored table has a row and its four columns are as long. *)
Definition aligned (a : analysis) : Prop :=
  rows a <> []
  /\ length (MA_Short a) = length (rows a)
  /\ length (MA_Long a) = length (rows a)
  /\ length (RSI a) = length (rows a).

(** The session entry, when there is one, is such a table. *)
Definition session_ok (st : app) : Prop :=
  match session_data st with
  | None => True
  | Some a => aligned a
  end.

(** Every close price is below the one before it. *)
Definition strictly_decreasing (data : frame) : Prop :=
  forall j, (S j < length data)%nat -> close_at data (S j) < close_at data j.

(** No close price is infinite: each is a number or is missing. *)
Definition no_infinite_price (data : frame) : Prop :=
  Forall (fun b => is_inf (Close b) = false) data.

(** The number in a cell, 0 when there is none. *)
Definition number_in (x : fval) : Q :=
  match x with
  | Fin q => q
  | _ => 0
  end.

(** A close price of ordinary size: a number between 0.0001 and
    100 000 000.  With such prices no difference, sum or quotient that the
    program forms leaves the range of [float64]. *)
Definition ordinary (x : fval) : bool :=
  match x with
  | Fin q => Qle_bool (1 # 10000) q && Qle_bool q 100000000
  | _ => false
  end.

Definition ordinary_prices (data : frame) : Prop :=
  Forall (fun b => ordinary (Close b) = true) data.

(** Every close price is of ordinary size or is missing. *)
Definition ordinary_or_missing (data : frame) : Prop :=
  Forall (fun b => is_nan (Close b) || ordinary (Close b) = true) data.

(** The longest window considered; the sidebar allows periods up to 100
    and 200, and the RSI looks back 14 bars. *)
Definition window_limit : nat := 1000.

(** The window that ends at position [i] is complete and holds no
    missing close price. *)
Definition full_window (data : frame) (p i : nat) : Prop :=
  (p <= S i)%nat
  /\ forall j, (S i - p <= j <= i)%nat ->
       nth j (close_column data) NaN <> NaN.

(** The contract of one moving-average column: as long as the table, a
    value exactly where the window is complete and without a missing
    close price. *)
Definition rolling_column (data : frame) (p : nat) (out : series) : Prop :=
  length out = length data
  /\ (forall i, (i < length data)%nat -> (S i < p)%nat -> nth i out NaN = NaN)
  /\ (forall i j, (i < length data)%nat -> (S i - p <= j <= i)%nat ->
        nth j (close_column data) NaN = NaN -> nth i out NaN = NaN)
  /\ (forall i, (i < length data)%nat -> full_window data p i ->
        is_finite (nth i out NaN) = true)
  /\ ((length data < p)%nat -> out = repeat NaN (length data)).

(** The five sample bars with the second close price missing. *)
Definition sample_prices_with_gap : frame :=
  [ mk_bar 1 (Fin 10) 500; mk_bar 2 NaN 300; mk_bar 3 (Fin 11) 800;
    mk_bar 4 (Fin 15) 100; mk_bar 5 (Fin 14) 250 ].

(** Sixteen bars with close prices 16, 15, ..., 1. *)
Definition falling_prices : frame :=
  map (fun d => mk_bar (Z.of_nat d) (Fin (inject_Z (16 - Z.of_nat d))) 1000)
      (seq 0 16).

(** * Properties *)

(** ** Rolling windows *)

Section RollingFacts.

Lemma length_rolling_mean (w : nat) (s : series) :
  length (rolling_mean w s) = length s.
Proof. unfold rolling_mean. now rewrite length_map, length_seq. Qed.

Lemma nth_rolling_mean (w : nat) (s : series) (i : nat) (d : fval) :
  (i < length s)%nat ->
  nth i (rolling_mean w s) d = window_mean w (window_at w s i).
Proof.
  intro Hi. unfold rolling_mean.
  rewrite (nth_indep _ d (window_mean w (window_at w s 0))).
  - rewrite (map_nth (fun j => window_mean w (window_at w s j))).
    now rewrite seq_nth.
  - now rewrite length_map, length_seq.
Qed.

Lemma nth_rolling_mean_beyond (w : nat) (s : series) (i : nat) :
  (length s <= i)%nat -> nth i (rolling_mean w s) NaN = NaN.
Proof.
  intro Hi. apply nth_overflow. now rewrite length_rolling_mean.
Qed.

Lemma length_window_at (w : nat) (s : series) (i : nat) :
  (i < length s)%nat -> length (window_at w s i) = Nat.min w (S i).
Proof.
  intro Hi. unfold window_at. rewrite length_skipn, length_firstn. lia.
Qed.

(** A full window lists the cells at positions [i-w+1 .. i]. *)
Lemma window_at_seq (w : nat) (s : series) (i : nat) :
  (i < length s)%nat -> (w <= S i)%nat ->
  window_at w s i = map (fun j => nth j s NaN) (seq (S i - w) w).
Proof.
  intros Hi Hw.
  apply (nth_ext _ _ NaN NaN).
  - rewrite length_window_at, length_map, length_seq by assumption. lia.
  - intros k Hk. rewrite length_window_at in Hk by assumption.
    unfold window_at. rewrite nth_skipn, nth_firstn.
    replace (S i - w + k <? S i)%nat with true
      by (symmetry; apply Nat.ltb_lt; lia).
    rewrite (nth_indep (map (fun j => nth j s NaN) (seq (S i - w) w))
               NaN (nth 0 s NaN))
      by (rewrite length_map, length_seq; lia).
    rewrite (map_nth (fun j => nth j s NaN)).
    rewrite seq_nth by lia. reflexivity.
Qed.

Lemma count_obs_le (l : list fval) : (count_obs l <= length l)%nat.
Proof.
  induction l as [|x l IH]; simpl; [lia|]. destruct x; simpl; lia.
Qed.

(** Too short a window has too few observations. *)
Lemma window_mean_short (w : nat) (win : list fval) :
  (length win < w)%nat -> window_mean w win = NaN.
Proof.
  intro H. unfold window_mean.
  pose proof (count_obs_le (map prep_value win)) as Hc.
  rewrite length_map in Hc.
  replace (w <=? count_obs (map prep_value win))%nat with false
    by (symmetry; apply Nat.leb_gt; lia).
  reflexivity.
Qed.

(** Before position [w-1] the rolling mean has no value. *)
Lemma rolling_mean_warm_up (w : nat) (s : series) (i : nat) :
  (S i < w)%nat -> nth i (rolling_mean w s) NaN = NaN.
Proof.
  intro Hw. destruct (Nat.lt_ge_cases i (length s)) as [Hi|Hi].
  - rewrite nth_rolling_mean by assumption.
    apply window_mean_short. rewrite length_window_at by assumption. lia.
  - now apply nth_rolling_mean_beyond.
Qed.

(** A window of numbers: every cell counts and the sum is the plain sum. *)
Lemma count_obs_numbers (f : nat -> Q) (js : list nat) :
  count_obs (map prep_value (map (fun j => Fin (f j)) js)) = length js.
Proof. induction js as [|j js IH]; simpl; congruence. Qed.

Lemma sum_obs_numbers (f : nat -> Q) (js : list nat) :
  sum_obs (map prep_value (map (fun j => Fin (f j)) js)) = Qsum (map f js).
Proof. induction js as [|j js IH]; simpl; congruence. Qed.

Lemma window_mean_numbers (w : nat) (f : nat -> Q) (js : list nat) :
  (1 <= w)%nat -> length js = w ->
  window_mean w (map (fun j => Fin (f j)) js)
  = Fin (Qsum (map f js) / inject_Z (Z.of_nat w)).
Proof.
  intros Hw Hl. unfold window_mean.
  rewrite count_obs_numbers, sum_obs_numbers, Hl.
  rewrite Nat.leb_refl.
  replace (0 <? w)%nat with true by (symmetry; apply Nat.ltb_lt; lia).
  reflexivity.
Qed.

Lemma rolling_mean_numbers (s : series) (w i : nat) (f : nat -> Q) :
  (1 <= w)%nat -> (w <= S i)%nat -> (i < length s)%nat ->
  (forall j, (S i - w <= j <= i)%nat -> nth j s NaN = Fin (f j)) ->
  nth i (rolling_mean w s) NaN = Fin (avg_of f w i).
Proof.
  intros Hw Hwi Hi Hf.
  rewrite nth_rolling_mean, window_at_seq by lia.
  replace (map (fun j => nth j s NaN) (seq (S i - w) w))
    with (map (fun j => Fin (f j)) (seq (S i - w) w)).
  - rewrite window_mean_numbers by (try rewrite length_seq; lia).
    reflexivity.
  - apply map_ext_in. intros j Hj. apply in_seq in Hj.
    symmetry. apply Hf. lia.
Qed.

Lemma rolling_mean_zero_window (s : series) (i : nat) :
  nth i (rolling_mean 0 s) NaN = NaN.
Proof.
  destruct (Nat.lt_ge_cases i (length s)) as [Hi|Hi].
  - rewrite nth_rolling_mean by assumption.
    unfold window_at. rewrite Nat.sub_0_r, skipn_all2; [reflexivity|].
    rewrite length_firstn. lia.
  - now apply nth_rolling_mean_beyond.
Qed.

Lemma count_obs_missing (l : list fval) :
  In NaN l -> (count_obs l < length l)%nat.
Proof.
  induction l as [|x l IH]; intro H; [contradiction|].
  destruct H as [->|H].
  - simpl. pose proof (count_obs_le l). lia.
  - specialize (IH H). destruct x; simpl; lia.
Qed.

Lemma window_mean_missing (w : nat) (win : list fval) :
  In NaN win -> (length win <= w)%nat -> window_mean w win = NaN.
Proof.
  intros Hin Hlen. unfold window_mean.
  assert (Hc : (count_obs (map prep_value win) < length win)%nat).
  { rewrite <- (length_map prep_value). apply count_obs_missing.
    change NaN with (prep_value NaN). now apply in_map. }
  replace (w <=? count_obs (map prep_value win))%nat with false
    by (symmetry; apply Nat.leb_gt; lia).
  reflexivity.
Qed.

End RollingFacts.

Lemma nth_close_finite (data : frame) (j : nat) :
  finite_prices data -> (j < length data)%nat ->
  nth j (close_column data) NaN = Fin (close_at data j).
Proof.
  intros Hf Hj. unfold close_at.
  pose proof (proj1 (Forall_forall _ _) Hf (nth j data (mk_bar 0 NaN 0))) as H.
  unfold close_column in *.
  rewrite (map_nth Close data (mk_bar 0 NaN 0) j
           : nth j (map Close data) NaN = _).
  specialize (H (nth_In _ _ Hj)).
  destruct (Close (nth j data (mk_bar 0 NaN 0))); simpl in H;
    try discriminate; reflexivity.
Qed.

(** The rolling mean of the close column at a position with a full
    window. *)
Lemma rolling_mean_close (data : frame) (p i : nat) :
  finite_prices data -> (1 <= p)%nat -> (p <= S i)%nat ->
  (i < length data)%nat ->
  nth i (rolling_mean p (close_column data)) NaN
  = Fin (mean_of_window data p i).
Proof.
  intros Hf Hp Hpi Hi.
  apply (rolling_mean_numbers (close_column data) (close_at data));
    try assumption.
  - unfold close_column. now rewrite length_map.
  - intros j Hj. apply nth_close_finite; [assumption|lia].
Qed.

Lemma usable_cell (data : frame) (j : nat) :
  ordinary_or_missing data ->
  nth j (close_column data) NaN <> NaN ->
  nth j (close_column data) NaN
  = Fin (number_in (nth j (close_column data) NaN)).
Proof.
  intros Hu Hj.
  destruct (Nat.lt_ge_cases j (length data)) as [Hlt|Hge].
  - unfold close_column in *.
    rewrite (map_nth Close data (mk_bar 0 NaN 0) j
             : nth j (map Close data) NaN = _) in *.
    pose proof (proj1 (Forall_forall _ _) Hu _
                  (nth_In data (mk_bar 0 NaN 0) Hlt)) as H.
    cbv beta in H.
    destruct (Close (nth j data (mk_bar 0 NaN 0)));
      try discriminate; [congruence | reflexivity].
  - exfalso. apply Hj. apply nth_overflow.
    unfold close_column. now rewrite length_map.
Qed.

Lemma rolling_column_of_close (data : frame) (p : nat) :
  ordinary_or_missing data -> (1 <= p)%nat ->
  rolling_column data p (rolling_mean p (close_column data)).
Proof.
  intros Hu Hp.
  assert (Hn : length (close_column data) = length data)
    by (unfold close_column; apply length_map).
  assert (Hlen : length (rolling_mean p (close_column data)) = length data)
    by now rewrite length_rolling_mean.
  split; [exact Hlen|].
  split; [intros i _ Hi; now apply rolling_mean_warm_up|].
  split; [|split].
  - intros i j Hi Hj Hnan.
    destruct (Nat.lt_ge_cases (S i) p) as [Hw|Hw];
      [now apply rolling_mean_warm_up|].
    rewrite nth_rolling_mean by lia.
    apply window_mean_missing.
    + rewrite window_at_seq by lia.
      apply in_map_iff. exists j. split; [exact Hnan | apply in_seq; lia].
    + rewrite length_window_at by lia. lia.
  - intros i Hi [Hw Hfull].
    rewrite (@rolling_mean_numbers (close_column data) p i
               (fun j => number_in (nth j (close_column data) NaN)));
      try (assumption || lia); [reflexivity|].
    intros j Hj. apply usable_cell; [assumption | now apply Hfull].
  - intro Hshort. apply (nth_ext _ _ NaN NaN).
    + now rewrite repeat_length.
    + intros k Hk. rewrite nth_repeat.
      apply rolling_mean_warm_up. lia.
Qed.




(** ** The cells of [calculate_rsi] *)

Section CellFacts.

Lemma where_map (s : series) (c : fval -> bool) (other : fval) :
  where_ s (map c s) other = map (fun x => if c x then x else other) s.
Proof.
  unfold where_. induction s as [|x s IH]; simpl; [reflexivity|].
  now rewrite IH.
Qed.

Lemma gain_terms_map (data : frame) :
  gain_terms data = map up (delta data).
Proof. unfold gain_terms, gt_scalar. now rewrite where_map. Qed.

Lemma loss_terms_map (data : frame) :
  loss_terms data = map down (delta data).
Proof.
  unfold loss_terms, lt_scalar, neg. rewrite where_map.
  rewrite map_map. reflexivity.
Qed.

Lemma calculate_rsi_map (data : frame) (periods : nat) :
  calculate_rsi data periods = map rsi_of (rs data periods).
Proof.
  unfold calculate_rsi, rsub, rdiv, radd. now rewrite !map_map.
Qed.

Lemma length_diff (s : series) : length (diff s) = length s.
Proof.
  destruct s as [|x tl]; simpl; [reflexivity|].
  rewrite length_map, length_combine. simpl. lia.
Qed.

Lemma nth_diff_0 (s : series) : nth 0 (diff s) NaN = NaN.
Proof. destruct s; reflexivity. Qed.

Lemma nth_pairs (tl : series) :
  forall (x : fval) (j : nat), (j < length tl)%nat ->
  nth j (map (fun p : fval * fval => fsub (fst p) (snd p))
             (combine tl (x :: tl))) NaN
  = fsub (nth j tl NaN) (nth j (x :: tl) NaN).
Proof.
  induction tl as [|y tl IH]; intros x j Hj; simpl in Hj; [lia|].
  destruct j as [|j]; [reflexivity|].
  change (nth j (map (fun p : fval * fval => fsub (fst p) (snd p))
                     (combine tl (y :: tl))) NaN
          = fsub (nth j tl NaN) (nth j (y :: tl) NaN)).
  apply IH. lia.
Qed.

Lemma nth_diff_S (s : series) (j : nat) :
  (S j < length s)%nat ->
  nth (S j) (diff s) NaN = fsub (nth (S j) s NaN) (nth j s NaN).
Proof.
  destruct s as [|x tl]; simpl; intro Hj; [lia|].
  apply nth_pairs. lia.
Qed.

Lemma length_delta (data : frame) : length (delta data) = length data.
Proof. unfold delta, close_column. now rewrite length_diff, length_map. Qed.

Lemma length_gain (data : frame) (periods : nat) :
  length (gain data periods) = length data.
Proof.
  unfold gain. now rewrite length_rolling_mean, gain_terms_map, length_map,
    length_delta.
Qed.

Lemma length_loss (data : frame) (periods : nat) :
  length (loss data periods) = length data.
Proof.
  unfold loss. now rewrite length_rolling_mean, loss_terms_map, length_map,
    length_delta.
Qed.

Lemma length_rs (data : frame) (periods : nat) :
  length (rs data periods) = length data.
Proof.
  unfold rs, div. rewrite length_map, length_combine, length_gain, length_loss.
  apply Nat.min_id.
Qed.

Lemma length_calculate_rsi (data : frame) (periods : nat) :
  length (calculate_rsi data periods) = length data.
Proof. now rewrite calculate_rsi_map, length_map, length_rs. Qed.

Lemma nth_rs (data : frame) (periods i : nat) :
  nth i (rs data periods) NaN
  = fdiv (nth i (gain data periods) NaN) (nth i (loss data periods) NaN).
Proof.
  unfold rs, div.
  change NaN with ((fun p : fval * fval => fdiv (fst p) (snd p)) (NaN, NaN))
    at 1.
  rewrite map_nth, combine_nth by now rewrite length_gain, length_loss.
  reflexivity.
Qed.

Lemma nth_calculate_rsi (data : frame) (periods i : nat) :
  nth i (calculate_rsi data periods) NaN
  = rsi_of (fdiv (nth i (gain data periods) NaN)
                 (nth i (loss data periods) NaN)).
Proof.
  rewrite calculate_rsi_map.
  change NaN with (rsi_of NaN) at 1.
  now rewrite map_nth, nth_rs.
Qed.

Lemma nth_gain_terms (data : frame) (j : nat) :
  (j < length data)%nat ->
  nth j (gain_terms data) NaN = up (nth j (delta data) NaN).
Proof.
  intro Hj. rewrite gain_terms_map.
  rewrite (nth_indep _ NaN (up NaN))
    by now rewrite length_map, length_delta.
  apply map_nth.
Qed.

Lemma nth_loss_terms (data : frame) (j : nat) :
  (j < length data)%nat ->
  nth j (loss_terms data) NaN = down (nth j (delta data) NaN).
Proof.
  intro Hj. rewrite loss_terms_map.
  rewrite (nth_indep _ NaN (down NaN))
    by now rewrite length_map, length_delta.
  apply map_nth.
Qed.

End CellFacts.

(** ** Averages of gains and losses over numeric prices *)

Section AverageFacts.

Lemma Qlt_bool_iff (a b : Q) : Qlt_bool a b = true <-> a < b.
Proof.
  unfold Qlt_bool. rewrite negb_true_iff. split; intro H.
  - apply Qnot_le_lt. intro Hle. apply Qle_bool_iff in Hle. congruence.
  - destruct (Qle_bool b a) eqn:E; [|reflexivity].
    apply Qle_bool_iff in E. exfalso. apply (Qlt_not_le _ _ H E).
Qed.

Lemma Qlt_bool_false (a b : Q) : Qlt_bool a b = false <-> b <= a.
Proof.
  unfold Qlt_bool. rewrite negb_false_iff. apply Qle_bool_iff.
Qed.

Variable data : frame.
Hypothesis numeric : finite_prices data.

Lemma nth_delta_S (k : nat) :
  (S k < length data)%nat ->
  nth (S k) (delta data) NaN
  = Fin (close_at data (S k) - close_at data k).
Proof.
  intro Hk. unfold delta.
  rewrite nth_diff_S by (unfold close_column; now rewrite length_map).
  rewrite !nth_close_finite by (assumption || lia). reflexivity.
Qed.

Lemma nth_gain_terms_numeric (j : nat) :
  (j < length data)%nat ->
  nth j (gain_terms data) NaN = Fin (gain_at data j).
Proof.
  intro Hj. rewrite nth_gain_terms by assumption.
  destruct j as [|k].
  - unfold delta. now rewrite nth_diff_0.
  - rewrite nth_delta_S by assumption. unfold up, gain_at. simpl.
    now destruct (Qlt_bool 0 (close_at data (S k) - close_at data k)).
Qed.

Lemma nth_loss_terms_numeric (j : nat) :
  (j < length data)%nat ->
  nth j (loss_terms data) NaN = Fin (loss_at data j).
Proof.
  intro Hj. rewrite nth_loss_terms by assumption.
  destruct j as [|k].
  - unfold delta. now rewrite nth_diff_0.
  - rewrite nth_delta_S by assumption. unfold down, loss_at, flt. simpl.
    now destruct (Qlt_bool (close_at data (S k) - close_at data k) 0).
Qed.

Lemma nth_gain_numeric (periods i : nat) :
  (1 <= periods)%nat -> (periods <= S i)%nat -> (i < length data)%nat ->
  nth i (gain data periods) NaN = Fin (avg_of (gain_at data) periods i).
Proof.
  intros Hp Hpi Hi. unfold gain. apply rolling_mean_numbers; try lia.
  - now rewrite gain_terms_map, length_map, length_delta.
  - intros j Hj. apply nth_gain_terms_numeric. lia.
Qed.

Lemma nth_loss_numeric (periods i : nat) :
  (1 <= periods)%nat -> (periods <= S i)%nat -> (i < length data)%nat ->
  nth i (loss data periods) NaN = Fin (avg_of (loss_at data) periods i).
Proof.
  intros Hp Hpi Hi. unfold loss. apply rolling_mean_numbers; try lia.
  - now rewrite loss_terms_map, length_map, length_delta.
  - intros j Hj. apply nth_loss_terms_numeric. lia.
Qed.

Lemma gain_at_nonneg (j : nat) : 0 <= gain_at data j.
Proof.
  destruct j as [|k]; simpl; [apply Qle_refl|].
  destruct (Qlt_bool 0 (close_at data (S k) - close_at data k)) eqn:E.
  - apply Qlt_bool_iff in E. now apply Qlt_le_weak.
  - apply Qle_refl.
Qed.

Lemma loss_at_nonneg (j : nat) : 0 <= loss_at data j.
Proof.
  destruct j as [|k]; simpl; [discriminate|].
  destruct (Qlt_bool (close_at data (S k) - close_at data k) 0) eqn:E.
  - apply Qlt_bool_iff in E. lra.
  - discriminate.
Qed.

End AverageFacts.

Section SumFacts.

Variable f : nat -> Q.

Lemma Qsum_nonneg (js : list nat) :
  (forall j, In j js -> 0 <= f j) -> 0 <= Qsum (map f js).
Proof.
  induction js as [|j js IH]; intro H; simpl; [apply Qle_refl|].
  assert (0 <= f j) by (apply H; now left).
  assert (0 <= Qsum (map f js)) by (apply IH; intros; apply H; now right).
  lra.
Qed.

Lemma Qsum_zero (js : list nat) :
  (forall j, In j js -> f j == 0) -> Qsum (map f js) == 0.
Proof.
  induction js as [|j js IH]; intro H; simpl; [reflexivity|].
  rewrite (H j) by now left. rewrite IH by (intros; apply H; now right).
  lra.
Qed.

Lemma Qsum_pos (js : list nat) :
  js <> [] -> (forall j, In j js -> 0 < f j) -> 0 < Qsum (map f js).
Proof.
  induction js as [|j js IH]; intros Hne H; [congruence|]. simpl.
  assert (0 < f j) by (apply H; now left).
  assert (0 <= Qsum (map f js))
    by (apply Qsum_nonneg; intros; apply Qlt_le_weak, H; now right).
  lra.
Qed.

Lemma width_pos (w : nat) : (1 <= w)%nat -> 0 < inject_Z (Z.of_nat w).
Proof.
  intro H. change 0 with (inject_Z 0). rewrite <- Zlt_Qlt. lia.
Qed.

Lemma avg_of_nonneg (w i : nat) :
  (1 <= w)%nat -> (forall j, 0 <= f j) -> 0 <= avg_of f w i.
Proof.
  intros Hw H. unfold avg_of.
  apply Qle_shift_div_l; [now apply width_pos|].
  rewrite Qmult_0_l. apply Qsum_nonneg. intros; apply H.
Qed.

Lemma avg_of_zero (w i : nat) :
  (w <= S i)%nat ->
  (forall j, (S i - w <= j <= i)%nat -> f j == 0) -> avg_of f w i == 0.
Proof.
  intros Hw H. unfold avg_of. rewrite Qsum_zero.
  - unfold Qdiv. apply Qmult_0_l.
  - intros j Hj. apply in_seq in Hj. apply H. lia.
Qed.

Lemma avg_of_pos (w i : nat) :
  (1 <= w)%nat -> (w <= S i)%nat ->
  (forall j, (S i - w <= j <= i)%nat -> 0 < f j) -> 0 < avg_of f w i.
Proof.
  intros Hw Hwi H. unfold avg_of.
  apply Qlt_shift_div_l; [now apply width_pos|].
  rewrite Qmult_0_l. apply Qsum_pos.
  - destruct w; [lia|]. simpl. discriminate.
  - intros j Hj. apply in_seq in Hj. apply H; lia.
Qed.

End SumFacts.

(** ** The quotient and the final formula on one cell *)

Section FormulaFacts.

Lemma Qeq_bool_false (a b : Q) : ~ a == b -> Qeq_bool a b = false.
Proof.
  intro H. destruct (Qeq_bool a b) eqn:E; [|reflexivity].
  apply Qeq_bool_iff in E. contradiction.
Qed.

Lemma fdiv_zero_zero (a b : Q) :
  a == 0 -> b == 0 -> fdiv (Fin a) (Fin b) = NaN.
Proof.
  intros Ha Hb. simpl.
  now rewrite (proj2 (Qeq_bool_iff b 0) Hb), (proj2 (Qeq_bool_iff a 0) Ha).
Qed.

Lemma fdiv_pos_zero (a b : Q) :
  0 < a -> b == 0 -> fdiv (Fin a) (Fin b) = PInf.
Proof.
  intros Ha Hb. simpl.
  rewrite (proj2 (Qeq_bool_iff b 0) Hb).
  rewrite Qeq_bool_false by (intro E; rewrite E in Ha; lra).
  now rewrite (proj2 (Qlt_bool_iff 0 a) Ha).
Qed.

Lemma fdiv_by_nonzero (a b : Q) :
  ~ b == 0 -> fdiv (Fin a) (Fin b) = Fin (a / b).
Proof. intro Hb. simpl. now rewrite Qeq_bool_false. Qed.

Lemma rsi_of_infinite : has_value (rsi_of PInf) 100.
Proof. simpl. lra. Qed.

(** With a positive average loss the value is a number of [0, 100]. *)
Lemma rsi_of_ratio (g l : Q) :
  0 <= g -> 0 < l ->
  exists q, rsi_of (fdiv (Fin g) (Fin l)) = Fin q /\ 0 <= q <= 100.
Proof.
  intros Hg Hl.
  rewrite fdiv_by_nonzero by (intro E; rewrite E in Hl; lra).
  assert (Hr : 0 <= g / l)
    by (apply Qle_shift_div_l; [assumption | lra]).
  unfold rsi_of. cbn [fadd].
  rewrite fdiv_by_nonzero by (intro E; lra).
  eexists; split; [reflexivity|].
  assert (Hlo : 0 <= 100 / (1 + g / l))
    by (apply Qle_shift_div_l; lra).
  assert (Hhi : 100 / (1 + g / l) <= 100)
    by (apply Qle_shift_div_r; lra).
  lra.
Qed.

(** Whatever the two averages are, as long as they are non-negative
    numbers: no value, or a number of [0, 100]. *)
Lemma rsi_of_averages (g l : Q) :
  0 <= g -> 0 <= l ->
  rsi_of (fdiv (Fin g) (Fin l)) = NaN
  \/ exists q, rsi_of (fdiv (Fin g) (Fin l)) = Fin q /\ 0 <= q <= 100.
Proof.
  intros Hg Hl.
  destruct (Qlt_le_dec 0 l) as [Hpos|Hle].
  - right. now apply rsi_of_ratio.
  - assert (Hl0 : l == 0) by lra.
    destruct (Qlt_le_dec 0 g) as [Hgpos|Hgle].
    + right. rewrite fdiv_pos_zero by assumption.
      eexists; split; [reflexivity|]. lra.
    + left. rewrite fdiv_zero_zero by lra. reflexivity.
Qed.

End FormulaFacts.

(** ** The range of the RSI *)



(** ** Flat prices *)

Section FlatFacts.

Variable c : Q.
Variable data : frame.
Hypothesis all_equal : flat c data.

Lemma flat_finite : finite_prices data.
Proof.
  unfold flat, finite_prices in *.
  eapply Forall_impl; [|exact all_equal].
  intros b Hb. simpl in Hb. now destruct (Close b).
Qed.

Lemma flat_close_at (j : nat) :
  (j < length data)%nat -> close_at data j == c.
Proof.
  intro Hj. unfold close_at, close_column.
  rewrite (map_nth Close data (mk_bar 0 NaN 0) j
           : nth j (map Close data) NaN = _).
  pose proof (proj1 (Forall_forall _ _) all_equal _
                (nth_In data (mk_bar 0 NaN 0) Hj)) as H.
  simpl in H. now destruct (Close (nth j data (mk_bar 0 NaN 0))).
Qed.

Lemma flat_gain_at (j : nat) :
  (j < length data)%nat -> gain_at data j == 0.
Proof.
  intro Hj. destruct j as [|k]; simpl; [reflexivity|].
  pose proof (flat_close_at Hj) as H1.
  pose proof (@flat_close_at k ltac:(lia)) as H2.
  destruct (Qlt_bool 0 (close_at data (S k) - close_at data k)) eqn:E;
    [|reflexivity].
  apply Qlt_bool_iff in E. lra.
Qed.

Lemma flat_loss_at (j : nat) :
  (j < length data)%nat -> loss_at data j == 0.
Proof.
  intro Hj. destruct j as [|k]; simpl; [reflexivity|].
  pose proof (flat_close_at Hj) as H1.
  pose proof (@flat_close_at k ltac:(lia)) as H2.
  destruct (Qlt_bool (close_at data (S k) - close_at data k) 0) eqn:E;
    [|reflexivity].
  apply Qlt_bool_iff in E. lra.
Qed.

Lemma flat_rsi_cell (periods i : nat) :
  nth i (calculate_rsi data periods) NaN = NaN.
Proof.
  destruct (Nat.lt_ge_cases i (length data)) as [Hi|Hi];
    [|apply nth_overflow; now rewrite length_calculate_rsi].
  rewrite nth_calculate_rsi.
  destruct (Nat.lt_ge_cases (S i) periods) as [Hw|Hw].
  - unfold gain. now rewrite rolling_mean_warm_up.
  - destruct periods as [|p].
    + unfold gain. now rewrite rolling_mean_zero_window.
    + rewrite nth_gain_numeric, nth_loss_numeric
        by (apply flat_finite || lia).
      rewrite fdiv_zero_zero; [reflexivity| |];
        apply avg_of_zero; try lia; intros j Hj.
      * apply flat_gain_at. lia.
      * apply flat_loss_at. lia.
Qed.

End FlatFacts.

(** C2: on a flat price series (all close prices equal) the code yields
    no value in every cell of the RSI column, at the positions past the
    warm-up too: the quotient of the two zero averages is not a number and
    the final formula keeps it; the value 50 is produced nowhere. *)
Theorem flat_prices_rsi_is_nan (c : Q) (data : frame) (periods : nat) :
  flat c data ->
  calculate_rsi data periods = repeat NaN (length data).
Proof.
  intro Hflat. apply (nth_ext _ _ NaN NaN).
  - now rewrite length_calculate_rsi, repeat_length.
  - intros i _. rewrite nth_repeat. now apply flat_rsi_cell with (c := c).
Qed.

Lemma flat_prices_rsi_is_nan_witness :
  flat 100 flat_prices
  /\ calculate_rsi flat_prices 14 = repeat NaN (length flat_prices).
Proof.
  assert (H : flat 100 flat_prices).
  { apply Forall_forall. intros b Hb. apply in_map_iff in Hb.
    destruct Hb as [d [<- _]]. simpl. reflexivity. }
  split; [exact H | exact (flat_prices_rsi_is_nan 14 H)].
Defined.

(** C3: at sixty bars of constant close 100.0 the RSI cell at position 14,
    which is past the warm-up of 14 bars, is not a number of [0, 100]: it is
    not-a-number. *)
Theorem rsi_not_a_number_past_warm_up :
  nth 14 (calculate_rsi flat_prices default_periods) (Fin 50) = NaN
  /\ (default_periods <= 14 < length flat_prices)%nat.
Proof. split; [vm_compute; reflexivity | vm_compute; lia]. Qed.

(** ** Warm-up of the RSI *)

Lemma rising_prices_finite : finite_prices rising_prices.
Proof.
  apply Forall_forall. intros b Hb. apply in_map_iff in Hb.
  now destruct Hb as [d [<- _]].
Qed.

Lemma rsi_warm_up (data : frame) (periods i : nat) :
  (S i < periods)%nat -> nth i (calculate_rsi data periods) NaN = NaN.
Proof.
  intro Hw. rewrite nth_calculate_rsi. unfold gain.
  now rewrite rolling_mean_warm_up.
Qed.

Lemma first_window (w : nat) (s : series) :
  (1 <= w)%nat -> window_at w s (w - 1) = firstn w s.
Proof.
  intro Hw. unfold window_at.
  replace (S (w - 1)) with w by lia. now rewrite Nat.sub_diag.
Qed.




(** ** Prices that only rise *)

Section RisingFacts.

Variable data : frame.
Hypothesis numeric : finite_prices data.
Hypothesis rising : strictly_increasing data.

Lemma rising_gain_at (k : nat) :
  (S k < length data)%nat -> 0 < gain_at data (S k).
Proof.
  intro Hk. specialize (rising Hk). simpl.
  destruct (Qlt_bool 0 (close_at data (S k) - close_at data k)) eqn:E.
  - now apply Qlt_bool_iff in E.
  - apply Qlt_bool_false in E. lra.
Qed.

Lemma rising_loss_at (k : nat) :
  (S k < length data)%nat -> loss_at data (S k) == 0.
Proof.
  intro Hk. specialize (rising Hk). simpl.
  destruct (Qlt_bool (close_at data (S k) - close_at data k) 0) eqn:E.
  - apply Qlt_bool_iff in E. lra.
  - reflexivity.
Qed.

Lemma rising_averages (periods i : nat) :
  (1 <= periods)%nat -> (periods <= i)%nat -> (i < length data)%nat ->
  0 < avg_of (gain_at data) periods i
  /\ avg_of (loss_at data) periods i == 0.
Proof.
  intros Hp Hpi Hi. split.
  - apply avg_of_pos; try lia. intros j Hj.
    destruct j as [|k]; [lia|]. apply rising_gain_at. lia.
  - apply avg_of_zero; try lia. intros j Hj.
    destruct j as [|k]; [lia|]. apply rising_loss_at. lia.
Qed.

End RisingFacts.

Lemma ordinary_finite (data : frame) :
  ordinary_prices data -> finite_prices data.
Proof.
  unfold ordinary_prices, finite_prices. apply Forall_impl.
  intros b H. now destruct (Close b).
Qed.

(** C5, as the code has it: where the average loss is zero and the
    average gain is positive, the quotient [rs] is infinite (the division
    by zero is carried out, there is no branch for it) and the final
    formula maps it to exactly 100; in particular this is so at every
    position from [periods] on of a strictly increasing series of prices
    of ordinary size. *)
Theorem rsi_100_when_no_loss (data : frame) (periods i : nat) :
  (forall g l : Q,
      nth i (gain data periods) NaN = Fin g ->
      nth i (loss data periods) NaN = Fin l ->
      0 < g -> l == 0 ->
      is_inf (nth i (rs data periods) NaN) = true
      /\ has_value (nth i (calculate_rsi data periods) NaN) 100)
  /\ (ordinary_prices data -> strictly_increasing data ->
      (1 <= periods)%nat -> (periods <= i)%nat -> (i < length data)%nat ->
      is_inf (nth i (rs data periods) NaN) = true
      /\ has_value (nth i (calculate_rsi data periods) NaN) 100).
Proof.
  assert (Hgen : forall g l : Q,
      nth i (gain data periods) NaN = Fin g ->
      nth i (loss data periods) NaN = Fin l ->
      0 < g -> l == 0 ->
      is_inf (nth i (rs data periods) NaN) = true
      /\ has_value (nth i (calculate_rsi data periods) NaN) 100).
  { intros g l Hg Hl Hpos Hzero.
    rewrite nth_calculate_rsi, nth_rs, Hg, Hl.
    rewrite fdiv_pos_zero by assumption.
    split; [reflexivity | apply rsi_of_infinite]. }
  split; [exact Hgen|].
  intros Ho Hinc Hp Hpi Hi.
  pose proof (ordinary_finite Ho) as Hf.
  destruct (rising_averages Hinc Hp Hpi Hi) as [Hg Hl].
  assert (Hfull : (periods <= S i)%nat) by lia.
  exact (Hgen _ _ (nth_gain_numeric Hf Hp Hfull Hi)
                  (nth_loss_numeric Hf Hp Hfull Hi) Hg Hl).
Qed.

Lemma rising_prices_ordinary : ordinary_prices rising_prices.
Proof. repeat constructor. Qed.

Lemma rising_prices_increasing : strictly_increasing rising_prices.
Proof.
  intros j Hj. change (length rising_prices) with 16%nat in Hj.
  do 15 (destruct j as [|j]; [vm_compute; reflexivity|]). lia.
Qed.

Lemma rsi_100_when_no_loss_witness :
  (is_inf (nth 14 (rs rising_prices 14) NaN) = true
   /\ has_value (nth 14 (calculate_rsi rising_prices 14) NaN) 100)
  /\ (is_inf (nth 15 (rs rising_prices 14) NaN) = true
      /\ has_value (nth 15 (calculate_rsi rising_prices 14) NaN) 100).
Proof.
  split.
  - eapply (proj1 (rsi_100_when_no_loss rising_prices 14 14)).
    + vm_compute. reflexivity.
    + vm_compute. reflexivity.
    + reflexivity.
    + reflexivity.
  - apply (proj2 (rsi_100_when_no_loss rising_prices 14 15)).
    + exact rising_prices_ordinary.
    + exact rising_prices_increasing.
    + lia.
    + lia.
    + simpl. lia.
Defined.

(** C5 as stated fails: no branch guards the division by zero.  At
    position 14 of sixteen rising prices the average loss is zero and the
    quotient [rs] is infinite: the division by zero is carried out, and
    the number in the RSI column is what the final formula makes of that
    infinity. *)
Lemma rs_is_infinite_when_no_loss :
  has_value (nth 14 (loss rising_prices default_periods) NaN) 0
  /\ is_inf (nth 14 (rs rising_prices default_periods) NaN) = true
  /\ is_finite (nth 14 (calculate_rsi rising_prices default_periods) NaN)
     = true.
Proof. repeat split; vm_compute; reflexivity. Qed.

(** ** The labels of the dashboard *)

Section LabelFacts.

Lemma last_default (tl : series) :
  forall a x y : fval, last (a :: tl) x = last (a :: tl) y.
Proof.
  induction tl as [|b tl IH]; intros a x y; [reflexivity|].
  change (last (b :: tl) x = last (b :: tl) y). apply IH.
Qed.

Lemma last_is_nth (tl : series) :
  forall x : fval, last tl x = nth (length tl) (x :: tl) NaN.
Proof.
  induction tl as [|y tl IH]; intro x; [reflexivity|].
  destruct tl as [|z tl']; [reflexivity|].
  change (last (y :: z :: tl') x) with (last (z :: tl') x).
  rewrite (last_default tl' z x y), (IH y). reflexivity.
Qed.

Lemma iloc_last_nth (s : series) :
  s <> [] -> iloc_last s = Some (nth (length s - 1) s NaN).
Proof.
  destruct s as [|x tl]; intro H; [congruence|].
  simpl. rewrite Nat.sub_0_r. f_equal. apply last_is_nth.
Qed.

Lemma trend_nan_l (l : fval) : trend NaN l = Drop.
Proof. reflexivity. Qed.

Lemma trend_nan_r (s : fval) : trend s NaN = Drop.
Proof. unfold trend. now destruct s. Qed.

Lemma iloc_last_rolling_mean_short (w : nat) (s : series) :
  s <> [] -> (length s < w)%nat -> iloc_last (rolling_mean w s) = Some NaN.
Proof.
  intros Hne Hw.
  assert (Hlen : (0 < length s)%nat)
    by (destruct s; [congruence | simpl; lia]).
  rewrite iloc_last_nth.
  - rewrite rolling_mean_warm_up; [reflexivity|].
    rewrite length_rolling_mean. lia.
  - intro E. apply (f_equal (@length fval)) in E.
    rewrite length_rolling_mean in E. simpl in E. lia.
Qed.

Lemma iloc_last_some (s : series) :
  s <> [] -> exists x, iloc_last s = Some x.
Proof. destruct s; intro H; [congruence | eexists; reflexivity]. Qed.

Lemma nonempty_length (A : Type) (l : list A) :
  l <> [] -> (0 < length l)%nat.
Proof. destruct l; [congruence | simpl; lia]. Qed.

Lemma length_nonempty (A : Type) (l : list A) :
  (0 < length l)%nat -> l <> [].
Proof. destruct l; simpl; [lia | discriminate]. Qed.

Lemma dashboard_after_analysis
    (data : frame) (ma_short ma_long : nat) (st : app) :
  data <> [] ->
  exists s l r,
    iloc_last (rolling_mean ma_short (close_column data)) = Some s
    /\ iloc_last (rolling_mean ma_long (close_column data)) = Some l
    /\ iloc_last (calculate_rsi data default_periods) = Some r
    /\ dashboard (start_analysis (Returns data) ma_short ma_long st)
       = Cards (trend s l) (rsi_status r).
Proof.
  intro Hne. pose proof (nonempty_length Hne) as Hlen.
  assert (Hc : forall w, rolling_mean w (close_column data) <> []).
  { intro w. apply length_nonempty.
    unfold close_column. now rewrite length_rolling_mean, length_map. }
  assert (Hr : calculate_rsi data default_periods <> []).
  { apply length_nonempty. now rewrite length_calculate_rsi. }
  destruct (iloc_last_some (Hc ma_short)) as [s Hs].
  destruct (iloc_last_some (Hc ma_long)) as [l Hl].
  destruct (iloc_last_some Hr) as [r Hrr].
  exists s, l, r. repeat split; try assumption.
  unfold start_analysis, dashboard.
  destruct data as [|b data']; [congruence|].
  cbn [empty session_data analyse MA_Short MA_Long RSI].
  now rewrite Hs, Hl, Hrr.
Qed.

End LabelFacts.

(** C6, as the code has it: a missing latest moving average makes the
    trend label Drop and a missing latest RSI makes the status label
    Normal; nothing refuses to run.  So after an analysis of a non-empty
    table with fewer bars than the longer window the dashboard shows Drop,
    and with fewer than 14 bars it shows Normal. *)
Theorem labels_on_missing_values :
  (forall s l : fval,
      is_nan s = true \/ is_nan l = true -> trend s l = Drop)
  /\ rsi_status NaN = Normal
  /\ (forall (data : frame) (ma_short ma_long : nat) (st : app),
        data <> [] -> (length data < Nat.max ma_short ma_long)%nat ->
        exists r,
          dashboard (start_analysis (Returns data) ma_short ma_long st)
          = Cards Drop r)
  /\ (forall (data : frame) (ma_short ma_long : nat) (st : app),
        data <> [] -> (length data < default_periods)%nat ->
        exists t,
          dashboard (start_analysis (Returns data) ma_short ma_long st)
          = Cards t Normal).
Proof.
  split; [|split; [reflexivity|split]].
  - intros s l [H|H].
    + destruct s; try discriminate. apply trend_nan_l.
    + destruct l; try discriminate. apply trend_nan_r.
  - intros data ma_short ma_long st Hne Hshort.
    destruct (dashboard_after_analysis ma_short ma_long st Hne)
      as [s [l [r [Hs [Hl [_ Hd]]]]]].
    exists (rsi_status r). rewrite Hd. f_equal.
    assert (Hc : close_column data <> []).
    { apply length_nonempty. unfold close_column. rewrite length_map.
      now apply nonempty_length. }
    assert (Hn : length (close_column data) = length data)
      by apply length_map.
    destruct (Nat.max_spec ma_short ma_long) as [[_ E]|[_ E]];
      rewrite E in Hshort.
    + rewrite iloc_last_rolling_mean_short in Hl by (assumption || lia).
      injection Hl as <-. apply trend_nan_r.
    + rewrite iloc_last_rolling_mean_short in Hs by (assumption || lia).
      injection Hs as <-. apply trend_nan_l.
  - intros data ma_short ma_long st Hne Hshort.
    destruct (dashboard_after_analysis ma_short ma_long st Hne)
      as [s [l [r [_ [_ [Hr Hd]]]]]].
    exists (trend s l). rewrite Hd. f_equal.
    rewrite iloc_last_nth in Hr
      by (apply length_nonempty; rewrite length_calculate_rsi;
          now apply nonempty_length).
    rewrite rsi_warm_up in Hr
      by (rewrite length_calculate_rsi;
          pose proof (nonempty_length Hne); lia).
    now injection Hr as <-.
Qed.

Lemma labels_on_missing_values_witness :
  trend NaN (Fin 12) = Drop
  /\ (exists r,
        dashboard (start_analysis (Returns short_history) 20 50 initial_app)
        = Cards Drop r)
  /\ (exists t,
        dashboard (start_analysis (Returns short_history) 20 50 initial_app)
        = Cards t Normal).
Proof.
  destruct labels_on_missing_values as [Ht [_ [Hd Hn]]].
  split; [apply Ht; now left|].
  split.
  - apply Hd; [discriminate | simpl; lia].
  - apply Hn; [discriminate | simpl; unfold default_periods; lia].
Defined.

(** C6 as stated fails: three bars with windows 20 and 50 leave the three
    latest values without value, and the dashboard still shows the labels
    Drop and Normal; nothing is reported. *)
Lemma labels_shown_without_history :
  session_data (start_analysis (Returns short_history) 20 50 initial_app)
  = Some (analyse short_history 20 50)
  /\ iloc_last (MA_Short (analyse short_history 20 50)) = Some NaN
  /\ iloc_last (MA_Long (analyse short_history 20 50)) = Some NaN
  /\ iloc_last (RSI (analyse short_history 20 50)) = Some NaN
  /\ errors (start_analysis (Returns short_history) 20 50 initial_app) = []
  /\ dashboard (start_analysis (Returns short_history) 20 50 initial_app)
     = Cards Drop Normal.
Proof. repeat split. Qed.

(** C7: for numeric latest moving averages the trend label is Rise
    exactly when the short average is above the long one, and Drop
    otherwise; equal averages, such as 10 and 10, give Drop. *)
Theorem trend_rise_iff_short_above_long :
  (forall a b : Q, trend (Fin a) (Fin b) = Rise <-> b < a)
  /\ (forall a b : Q, trend (Fin a) (Fin b) = Drop <-> a <= b)
  /\ (forall a b : Q, a == b -> trend (Fin a) (Fin b) = Drop)
  /\ trend (Fin 10) (Fin 10) = Drop.
Proof.
  assert (Hrise : forall a b : Q, trend (Fin a) (Fin b) = Rise <-> b < a).
  { intros a b. unfold trend. cbn [fgt]. rewrite <- Qlt_bool_iff.
    destruct (Qlt_bool b a); split; congruence. }
  assert (Hdrop : forall a b : Q, trend (Fin a) (Fin b) = Drop <-> a <= b).
  { intros a b. unfold trend. cbn [fgt]. rewrite <- Qlt_bool_false.
    destruct (Qlt_bool b a); split; congruence. }
  repeat split; try apply Hrise; try apply Hdrop.
  intros a b E. apply Hdrop. rewrite E. apply Qle_refl.
Qed.

(** C8: for a numeric latest RSI the status label is Overbought exactly
    above 70, Oversold exactly below 30 and Normal from 30 to 70, both
    ends included. *)
Theorem rsi_status_bands :
  (forall r : Q, rsi_status (Fin r) = Overbought <-> 70 < r)
  /\ (forall r : Q, rsi_status (Fin r) = Oversold <-> r < 30)
  /\ (forall r : Q, rsi_status (Fin r) = Normal <-> 30 <= r <= 70)
  /\ rsi_status (Fin 70) = Normal
  /\ rsi_status (Fin 30) = Normal
  /\ rsi_status (Fin (700001 # 10000)) = Overbought.
Proof.
  assert (H : forall r : Q,
             (rsi_status (Fin r) = Overbought <-> 70 < r)
             /\ (rsi_status (Fin r) = Oversold <-> r < 30)
             /\ (rsi_status (Fin r) = Normal <-> 30 <= r <= 70)).
  { intro r. unfold rsi_status, flt. cbn [fgt].
    destruct (Qlt_bool 70 r) eqn:E1; destruct (Qlt_bool r 30) eqn:E2;
      try apply Qlt_bool_iff in E1; try apply Qlt_bool_iff in E2;
      try apply Qlt_bool_false in E1; try apply Qlt_bool_false in E2;
      repeat split; intros; try discriminate; try lra; try reflexivity. }
  split; [intro r; apply (H r)|].
  split; [intro r; apply (H r)|].
  split; [intro r; apply (H r)|].
  repeat split.
Qed.

(** ** The empty download *)

Lemma no_data_is_not_a_failure (e : string) :
  failure_message e <> no_data_message.
Proof. unfold failure_message, no_data_message. simpl. discriminate. Qed.

(** C9: when the download returns an empty table the handler shows the
    no-data message, which no failure message equals, and does nothing
    else: the session entry is left as it was, so no indicator column is
    computed or stored for that request, and from a fresh session nothing
    is rendered.  The message is shown for an empty table only: a
    non-empty one is analysed and stored without any message. *)
Theorem empty_download_reports_no_data
    (ma_short ma_long : nat) (st : app) :
  start_analysis (Returns []) ma_short ma_long st
  = {| session_data := session_data st;
       errors := errors st ++ [no_data_message] |}
  /\ (forall e : string, failure_message e <> no_data_message)
  /\ dashboard (start_analysis (Returns []) ma_short ma_long initial_app)
     = NotRendered
  /\ (forall data : frame, empty data = true ->
        start_analysis (Returns data) ma_short ma_long st
        = st_error no_data_message st)
  /\ (forall data : frame, empty data = false ->
        start_analysis (Returns data) ma_short ma_long st
        = {| session_data := Some (analyse data ma_short ma_long);
             errors := errors st |}).
Proof.
  split; [reflexivity|].
  split; [exact no_data_is_not_a_failure|].
  split; [reflexivity|].
  split; intros data H; unfold start_analysis; now rewrite H.
Qed.

Lemma empty_download_reports_no_data_witness :
  start_analysis (Returns []) 20 50 initial_app
  = st_error no_data_message initial_app
  /\ start_analysis (Returns sample_prices) 20 50 initial_app
     = {| session_data := Some (analyse sample_prices 20 50);
          errors := [] |}.
Proof.
  destruct (empty_download_reports_no_data 20 50 initial_app)
    as [_ [_ [_ [Hempty Hfull]]]].
  split; [apply Hempty | apply Hfull]; reflexivity.
Defined.

(** ** What the RSI depends on *)

(** C10: [calculate_rsi] is a function of the Close column alone: two
    tables with the same Close column (same length, same cells) get the
    same RSI column whatever their Date and Volume columns hold.  Being a
    function, it gives the same column each time it is applied to the same
    table. *)
Theorem calculate_rsi_depends_on_close_only
    (data1 data2 : frame) (periods : nat) :
  close_column data1 = close_column data2 ->
  calculate_rsi data1 periods = calculate_rsi data2 periods.
Proof.
  intro H.
  unfold calculate_rsi, rs, gain, loss, gain_terms, loss_terms, delta.
  now rewrite H.
Qed.

Lemma calculate_rsi_depends_on_close_only_witness :
  sample_prices <> sample_prices_other_days
  /\ calculate_rsi sample_prices 3
     = calculate_rsi sample_prices_other_days 3.
Proof.
  split; [discriminate|].
  apply calculate_rsi_depends_on_close_only. reflexivity.
Defined.

(** * Further properties of the code *)

(** ** The session over the reruns *)

Section SessionFacts.

Lemma press_session (st : app) (r : request) :
  session_data (press st r)
  = match stored r with Some a => Some a | None => session_data st end.
Proof.
  unfold press, stored, start_analysis.
  destruct (fetched r) as [e|data]; [reflexivity|].
  now destruct (empty data).
Qed.

Lemma press_errors (st : app) (r : request) :
  errors (press st r) = errors st ++ shown r.
Proof.
  unfold press, shown, start_analysis.
  destruct (fetched r) as [e|data]; [reflexivity|].
  destruct (empty data); [reflexivity|]. simpl. now rewrite app_nil_r.
Qed.

Lemma analyse_aligned (data : frame) (ma_short ma_long : nat) :
  data <> [] -> aligned (analyse data ma_short ma_long).
Proof.
  intro Hne. unfold aligned, analyse; simpl.
  repeat split; try assumption.
  - unfold close_column. now rewrite length_rolling_mean, length_map.
  - unfold close_column. now rewrite length_rolling_mean, length_map.
  - apply length_calculate_rsi.
Qed.

Lemma stored_aligned (r : request) (a : analysis) :
  stored r = Some a -> aligned a.
Proof.
  unfold stored. destruct (fetched r) as [e|data]; [discriminate|].
  destruct data as [|b data]; [discriminate|].
  intro H. injection H as <-. now apply analyse_aligned.
Qed.

Lemma press_keeps_ok (st : app) (r : request) :
  session_ok st -> session_ok (press st r).
Proof.
  unfold session_ok. rewrite press_session.
  destruct (stored r) as [a|] eqn:E; [|trivial].
  intros _. now apply stored_aligned with (r := r).
Qed.

Lemma reruns_keep_ok (requests : list request) :
  forall st, session_ok st -> session_ok (reruns requests st).
Proof.
  induction requests as [|r tl IH]; intros st H; [exact H|].
  apply IH. now apply press_keeps_ok.
Qed.

Lemma ok_dashboard (st : app) :
  session_ok st -> dashboard st <> IndexError.
Proof.
  unfold session_ok, dashboard.
  destruct (session_data st) as [a|]; [|discriminate].
  intros [Hne [Hs [Hl Hr]]].
  pose proof (nonempty_length Hne) as Hlen.
  destruct (@iloc_last_some (MA_Short a)) as [x ->];
    [apply length_nonempty; lia|].
  destruct (@iloc_last_some (MA_Long a)) as [y ->];
    [apply length_nonempty; lia|].
  destruct (@iloc_last_some (RSI a)) as [z ->];
    [apply length_nonempty; lia|].
  discriminate.
Qed.

End SessionFacts.

(** X1: whatever the downloads of a session did, in whatever order, the
    table in the session entry (if any) has at least one row and three
    indicator columns of the length of the table, so the dashboard never
    fails to read a latest value. *)
Theorem dashboard_never_out_of_range (requests : list request) :
  session_ok (reruns requests initial_app)
  /\ dashboard (reruns requests initial_app) <> IndexError.
Proof.
  assert (H : session_ok (reruns requests initial_app))
    by (apply reruns_keep_ok; exact I).
  split; [exact H | now apply ok_dashboard].
Qed.

(** X2: after any sequence of requests the session entry is the table of
    the latest request whose download was not empty and did not raise (the
    earlier entry when there was none), and the messages shown are, in
    order, one per request whose download was empty or raised.  A request
    that stores nothing therefore leaves the dashboard as it was. *)
Theorem session_keeps_latest_good_download
    (requests : list request) (st : app) :
  session_data (reruns requests st)
  = latest_stored requests (session_data st)
  /\ errors (reruns requests st) = errors st ++ flat_map shown requests
  /\ (forall r : request, stored r = None ->
        dashboard (press st r) = dashboard st).
Proof.
  split; [|split].
  - revert st. induction requests as [|r tl IH]; intro st; [reflexivity|].
    simpl. rewrite IH, press_session. reflexivity.
  - revert st. induction requests as [|r tl IH]; intro st; simpl.
    + now rewrite app_nil_r.
    + rewrite IH, press_errors. now rewrite <- app_assoc.
  - intros r Hr. unfold dashboard. rewrite press_session, Hr. reflexivity.
Qed.

Lemma session_keeps_latest_good_download_witness :
  dashboard (press (press initial_app (mk_request (Returns sample_prices) 2 3))
                   (mk_request (Returns []) 20 50))
  = dashboard (press initial_app (mk_request (Returns sample_prices) 2 3)).
Proof.
  apply (session_keeps_latest_good_download []). reflexivity.
Defined.

(** ** Colours and labels *)

(** X3: the colour beside each label always goes with the label, missing
    values included: green with Rise and red with Drop; red with
    Overbought, green with Oversold and dark with Normal. *)
Theorem colours_follow_labels (ma_short_value ma_long_value r : fval) :
  (trend_color ma_short_value ma_long_value = "#27ae60"%string
   <-> trend ma_short_value ma_long_value = Rise)
  /\ (trend_color ma_short_value ma_long_value = "#e74c3c"%string
      <-> trend ma_short_value ma_long_value = Drop)
  /\ (rsi_color r = "#e74c3c"%string <-> rsi_status r = Overbought)
  /\ (rsi_color r = "#27ae60"%string <-> rsi_status r = Oversold)
  /\ (rsi_color r = "#2c3e50"%string <-> rsi_status r = Normal).
Proof.
  unfold trend_color, trend, rsi_color, rsi_status.
  destruct (fgt ma_short_value ma_long_value);
    destruct (fgt r (Fin 70)); destruct (flt r (Fin 30));
    repeat split; intros; (reflexivity || discriminate).
Qed.

Lemma fgt_irrefl (x : fval) : fgt x x = false.
Proof.
  destruct x as [| | |q]; try reflexivity.
  simpl. apply Qlt_bool_false. apply Qle_refl.
Qed.

(** X4: when the two periods of the sidebar are equal, the trend label
    after an analysis is Drop whatever the prices are: the two averages
    are the same column and nothing is above itself. *)
Theorem equal_periods_give_drop (data : frame) (period : nat) (st : app) :
  data <> [] ->
  exists r,
    dashboard (start_analysis (Returns data) period period st)
    = Cards Drop r.
Proof.
  intro Hne.
  destruct (dashboard_after_analysis period period st Hne)
    as [s [l [r [Hs [Hl [_ Hd]]]]]].
  exists (rsi_status r). rewrite Hd. f_equal.
  rewrite Hs in Hl. injection Hl as <-.
  unfold trend. now rewrite fgt_irrefl.
Qed.

Lemma equal_periods_give_drop_witness :
  exists r,
    dashboard (start_analysis (Returns rising_prices) 5 5 initial_app)
    = Cards Drop r.
Proof. apply equal_periods_give_drop. discriminate. Defined.

(** ** The RSI in closed form *)

Section ClosedForm.

Lemma rsi_of_closed_form (g l : Q) :
  0 <= g -> 0 <= l -> 0 < g + l ->
  has_value (rsi_of (fdiv (Fin g) (Fin l))) (100 * g / (g + l)).
Proof.
  intros Hg Hl Hsum.
  destruct (Qlt_le_dec 0 l) as [Hpos|Hle].
  - rewrite fdiv_by_nonzero by (intro E; rewrite E in Hpos; lra).
    assert (Hr : 0 <= g / l)
      by (apply Qle_shift_div_l; [assumption | lra]).
    unfold rsi_of. cbn [fadd].
    rewrite fdiv_by_nonzero by (intro E; lra).
    simpl. field. split; intro E; lra.
  - assert (Hl0 : l == 0) by lra.
    rewrite fdiv_pos_zero by lra.
    simpl. rewrite Hl0. field. intro E. lra.
Qed.

End ClosedForm.

(** ** The status label read off the averages *)

Section StatusFacts.

Lemma rsi_status_of_number (q : Q) :
  (rsi_status (Fin q) = Overbought <-> 70 < q)
  /\ (rsi_status (Fin q) = Oversold <-> q < 30)
  /\ (rsi_status (Fin q) = Normal <-> 30 <= q <= 70).
Proof.
  unfold rsi_status, flt. cbn [fgt].
  destruct (Qlt_bool 70 q) eqn:E1; destruct (Qlt_bool q 30) eqn:E2;
    try apply Qlt_bool_iff in E1; try apply Qlt_bool_iff in E2;
    try apply Qlt_bool_false in E1; try apply Qlt_bool_false in E2;
    repeat split; intros; try discriminate; try lra; try reflexivity.
Qed.

Lemma ratio_bands (q g l : Q) :
  0 < g + l -> q == 100 * g / (g + l) ->
  (70 < q <-> 7 * l < 3 * g)
  /\ (q < 30 <-> 7 * g < 3 * l)
  /\ (30 <= q <= 70 <-> 3 * l <= 7 * g /\ 3 * g <= 7 * l).
Proof.
  intros Hs Hq.
  assert (Hm : q * (g + l) == 100 * g)
    by (rewrite Hq; field; intro E; lra).
  repeat split; intros; nra.
Qed.

End StatusFacts.

(** ** Prices that only fall *)

Section FallingFacts.

Variable data : frame.
Hypothesis falling : strictly_decreasing data.

Lemma falling_gain_at (k : nat) :
  (S k < length data)%nat -> gain_at data (S k) == 0.
Proof.
  intro Hk. specialize (falling Hk). simpl.
  destruct (Qlt_bool 0 (close_at data (S k) - close_at data k)) eqn:E.
  - apply Qlt_bool_iff in E. lra.
  - reflexivity.
Qed.

Lemma falling_loss_at (k : nat) :
  (S k < length data)%nat -> 0 < loss_at data (S k).
Proof.
  intro Hk. specialize (falling Hk). simpl.
  destruct (Qlt_bool (close_at data (S k) - close_at data k) 0) eqn:E.
  - lra.
  - apply Qlt_bool_false in E. lra.
Qed.

Lemma falling_averages (periods i : nat) :
  (1 <= periods)%nat -> (periods <= i)%nat -> (i < length data)%nat ->
  avg_of (gain_at data) periods i == 0
  /\ 0 < avg_of (loss_at data) periods i.
Proof.
  intros Hp Hpi Hi. split.
  - apply avg_of_zero; try lia. intros j Hj.
    destruct j as [|k]; [lia|]. apply falling_gain_at. lia.
  - apply avg_of_pos; try lia. intros j Hj.
    destruct j as [|k]; [lia|]. apply falling_loss_at. lia.
Qed.

Lemma falling_rsi_cell (periods i : nat) :
  finite_prices data ->
  (1 <= periods)%nat -> (periods <= i)%nat -> (i < length data)%nat ->
  has_value (nth i (calculate_rsi data periods) NaN) 0.
Proof.
  intros Hf Hp Hpi Hi.
  destruct (falling_averages Hp Hpi Hi) as [Hg Hl].
  rewrite nth_calculate_rsi, nth_gain_numeric, nth_loss_numeric
    by (assumption || lia).
  assert (H0 : 0 <= avg_of (gain_at data) periods i) by lra.
  assert (H1 : 0 <= avg_of (loss_at data) periods i) by lra.
  assert (H2 : 0 < avg_of (gain_at data) periods i
                   + avg_of (loss_at data) periods i) by lra.
  pose proof (rsi_of_closed_form H0 H1 H2) as Hv.
  destruct (rsi_of (fdiv (Fin (avg_of (gain_at data) periods i))
                         (Fin (avg_of (loss_at data) periods i))))
    as [| | |q]; try contradiction.
  simpl in *. rewrite Hv, Hg. field. intro E. lra.
Qed.

End FallingFacts.

Lemma falling_prices_finite : finite_prices falling_prices.
Proof.
  apply Forall_forall. intros b Hb. apply in_map_iff in Hb.
  now destruct Hb as [d [<- _]].
Qed.

Lemma falling_prices_decreasing : strictly_decreasing falling_prices.
Proof.
  intros j Hj. change (length falling_prices) with 16%nat in Hj.
  do 15 (destruct j as [|j]; [vm_compute; reflexivity|]). lia.
Qed.

Lemma falling_prices_ordinary : ordinary_prices falling_prices.
Proof. repeat constructor. Qed.



(** ** What the RSI does not see *)

Section Locality.

Variables (data1 data2 : frame) (periods i : nat).
Hypothesis inside1 : (i < length data1)%nat.
Hypothesis inside2 : (i < length data2)%nat.
Hypothesis same_window :
  forall j, (i - periods <= j <= i)%nat ->
    nth j (close_column data1) NaN = nth j (close_column data2) NaN.

Lemma delta_local (j : nat) :
  (S i - periods <= j <= i)%nat ->
  nth j (delta data1) NaN = nth j (delta data2) NaN.
Proof.
  intro Hj. unfold delta. destruct j as [|j].
  - now rewrite !nth_diff_0.
  - rewrite !nth_diff_S by (unfold close_column; rewrite length_map; lia).
    rewrite (same_window (j := S j)), (same_window (j := j)) by lia.
    reflexivity.
Qed.

Lemma windows_local :
  (periods <= S i)%nat ->
  window_at periods (gain_terms data1) i
  = window_at periods (gain_terms data2) i
  /\ window_at periods (loss_terms data1) i
     = window_at periods (loss_terms data2) i.
Proof.
  intro Hw. split.
  - rewrite !window_at_seq
      by (try rewrite gain_terms_map, length_map, length_delta; lia).
    apply map_ext_in. intros j Hj. apply in_seq in Hj.
    rewrite !nth_gain_terms by lia. f_equal. apply delta_local. lia.
  - rewrite !window_at_seq
      by (try rewrite loss_terms_map, length_map, length_delta; lia).
    apply map_ext_in. intros j Hj. apply in_seq in Hj.
    rewrite !nth_loss_terms by lia. f_equal. apply delta_local. lia.
Qed.

Lemma rsi_cell_local :
  nth i (calculate_rsi data1 periods) NaN
  = nth i (calculate_rsi data2 periods) NaN.
Proof.
  destruct (Nat.lt_ge_cases (S i) periods) as [Hw|Hw];
    [now rewrite !rsi_warm_up|].
  rewrite !nth_calculate_rsi. unfold gain, loss.
  rewrite !nth_rolling_mean
    by (rewrite ?gain_terms_map, ?loss_terms_map, length_map, length_delta;
        assumption).
  destruct (windows_local Hw) as [-> ->]. reflexivity.
Qed.

End Locality.



(** ** Where a moving average lies *)

Section Bounds.

Variable f : nat -> Q.

Lemma width_S (n : nat) :
  inject_Z (Z.of_nat (S n)) == inject_Z (Z.of_nat n) + 1.
Proof. rewrite Nat2Z.inj_succ, <- Z.add_1_r, inject_Z_plus. reflexivity. Qed.

Lemma Qsum_lower (lo : Q) (js : list nat) :
  (forall j, In j js -> lo <= f j) ->
  inject_Z (Z.of_nat (length js)) * lo <= Qsum (map f js).
Proof.
  induction js as [|j js IH]; intro H.
  - change (0 * lo <= 0). lra.
  - cbn [length map Qsum fold_right]. rewrite width_S.
    assert (lo <= f j) by (apply H; now left).
    assert (inject_Z (Z.of_nat (length js)) * lo <= Qsum (map f js))
      by (apply IH; intros; apply H; now right).
    unfold Qsum in *. lra.
Qed.

Lemma Qsum_upper (hi : Q) (js : list nat) :
  (forall j, In j js -> f j <= hi) ->
  Qsum (map f js) <= inject_Z (Z.of_nat (length js)) * hi.
Proof.
  induction js as [|j js IH]; intro H.
  - change (0 <= 0 * hi). lra.
  - cbn [length map Qsum fold_right]. rewrite width_S.
    assert (f j <= hi) by (apply H; now left).
    assert (Qsum (map f js) <= inject_Z (Z.of_nat (length js)) * hi)
      by (apply IH; intros; apply H; now right).
    unfold Qsum in *. lra.
Qed.

Lemma avg_of_between (lo hi : Q) (w i : nat) :
  (1 <= w)%nat -> (w <= S i)%nat ->
  (forall j, (S i - w <= j <= i)%nat -> lo <= f j <= hi) ->
  lo <= avg_of f w i <= hi.
Proof.
  intros Hw Hwi H. pose proof (width_pos Hw) as Hpos.
  assert (Hin : forall j, In j (seq (S i - w) w) -> lo <= f j <= hi)
    by (intros j Hj; apply in_seq in Hj; apply H; lia).
  pose proof (@Qsum_lower lo (seq (S i - w) w)
                (fun j Hj => proj1 (Hin j Hj))) as Hlo.
  pose proof (@Qsum_upper hi (seq (S i - w) w)
                (fun j Hj => proj2 (Hin j Hj))) as Hhi.
  rewrite length_seq in Hlo, Hhi. unfold avg_of. split.
  - apply Qle_shift_div_l; [assumption | lra].
  - apply Qle_shift_div_r; [assumption | lra].
Qed.

End Bounds.

(** ** What the dashboard shows for simple price paths *)

Section LatestCells.

Variable data : frame.
Hypothesis has_rows : data <> [].

Lemma latest_cells (ma_short ma_long : nat) (st : app) :
  dashboard (start_analysis (Returns data) ma_short ma_long st)
  = Cards
      (trend
         (nth (length data - 1) (rolling_mean ma_short (close_column data))
              NaN)
         (nth (length data - 1) (rolling_mean ma_long (close_column data))
              NaN))
      (rsi_status
         (nth (length data - 1) (calculate_rsi data default_periods) NaN)).
Proof.
  pose proof (nonempty_length has_rows) as Hlen.
  destruct (dashboard_after_analysis ma_short ma_long st has_rows)
    as [s [l [r [Hs [Hl [Hr Hd]]]]]].
  assert (Hc : forall w,
             iloc_last (rolling_mean w (close_column data))
             = Some (nth (length data - 1)
                         (rolling_mean w (close_column data)) NaN)).
  { intro w. rewrite iloc_last_nth.
    - unfold close_column. now rewrite length_rolling_mean, length_map.
    - apply length_nonempty. unfold close_column.
      now rewrite length_rolling_mean, length_map. }
  rewrite Hc in Hs, Hl. rewrite iloc_last_nth in Hr.
  - rewrite length_calculate_rsi in Hr.
    injection Hs as <-. injection Hl as <-. injection Hr as <-.
    exact Hd.
  - apply length_nonempty. now rewrite length_calculate_rsi.
Qed.

End LatestCells.

(** X14: after an analysis of a strictly increasing series of more than
    14 bars with prices of ordinary size, the dashboard shows the status
    Overbought, whatever the two periods are. *)
Theorem rising_prices_dashboard
    (data : frame) (ma_short ma_long : nat) (st : app) :
  ordinary_prices data -> strictly_increasing data ->
  (default_periods < length data)%nat ->
  exists t,
    dashboard (start_analysis (Returns data) ma_short ma_long st)
    = Cards t Overbought.
Proof.
  intros Ho Hinc Hn. pose proof (ordinary_finite Ho) as Hf.
  assert (Hne : data <> []) by (apply length_nonempty; lia).
  rewrite latest_cells by assumption. eexists. f_equal.
  unfold default_periods in *.
  destruct (@rising_averages data Hinc 14 (length data - 1))
    as [Hg Hl0]; try lia.
  rewrite nth_calculate_rsi, nth_gain_numeric, nth_loss_numeric
    by (assumption || lia).
  assert (H0 : 0 <= avg_of (gain_at data) 14 (length data - 1)) by lra.
  assert (H1 : 0 <= avg_of (loss_at data) 14 (length data - 1)) by lra.
  assert (H2 : 0 < avg_of (gain_at data) 14 (length data - 1)
                   + avg_of (loss_at data) 14 (length data - 1)) by lra.
  pose proof (rsi_of_closed_form H0 H1 H2) as Hv.
  destruct (rsi_of
              (fdiv (Fin (avg_of (gain_at data) 14 (length data - 1)))
                    (Fin (avg_of (loss_at data) 14 (length data - 1)))))
    as [| | |q]; try contradiction.
  simpl in Hv. apply rsi_status_of_number.
  apply (ratio_bands H2 Hv). lra.
Qed.

Lemma rising_prices_dashboard_witness :
  exists t,
    dashboard (start_analysis (Returns rising_prices) 3 10 initial_app)
    = Cards t Overbought.
Proof.
  apply rising_prices_dashboard.
  - exact rising_prices_ordinary.
  - exact rising_prices_increasing.
  - simpl. unfold default_periods. lia.
Defined.



Section FlatDashboard.

Variable c : Q.
Variable data : frame.
Hypothesis all_equal : flat c data.

Lemma flat_ma_cell (p i : nat) :
  nth i (rolling_mean p (close_column data)) NaN = NaN
  \/ exists m, nth i (rolling_mean p (close_column data)) NaN = Fin m
               /\ m == c.
Proof.
  destruct (Nat.lt_ge_cases i (length data)) as [Hi|Hi].
  2:{ left. apply nth_rolling_mean_beyond.
      unfold close_column. now rewrite length_map. }
  destruct (Nat.lt_ge_cases (S i) p) as [Hw|Hw];
    [left; now apply rolling_mean_warm_up|].
  destruct p as [|p]; [left; apply rolling_mean_zero_window|].
  right. exists (avg_of (close_at data) (S p) i). split.
  - apply rolling_mean_close; try (assumption || lia).
    now apply flat_finite with (c := c).
  - assert (H : c <= avg_of (close_at data) (S p) i <= c).
    { apply avg_of_between; try lia. intros j Hj.
      rewrite (@flat_close_at c data all_equal j) by lia.
      split; apply Qle_refl. }
    lra.
Qed.

Lemma flat_trend (p q i : nat) :
  trend (nth i (rolling_mean p (close_column data)) NaN)
        (nth i (rolling_mean q (close_column data)) NaN) = Drop.
Proof.
  destruct (flat_ma_cell p i) as [->|[m [-> Hm]]]; [apply trend_nan_l|].
  destruct (flat_ma_cell q i) as [->|[m' [-> Hm']]]; [apply trend_nan_r|].
  unfold trend. cbn [fgt].
  replace (Qlt_bool m' m) with false; [reflexivity|].
  symmetry. apply Qlt_bool_false. lra.
Qed.

End FlatDashboard.

(** X16: after an analysis of a non-empty flat series (all close prices
    equal), whatever its length and the two periods, the dashboard shows
    Drop and Normal: Drop because neither average is above the other or
    one is missing, Normal because the latest RSI is not a number. *)
Theorem flat_prices_dashboard
    (c : Q) (data : frame) (ma_short ma_long : nat) (st : app) :
  flat c data -> data <> [] ->
  dashboard (start_analysis (Returns data) ma_short ma_long st)
  = Cards Drop Normal.
Proof.
  intros Hflat Hne. rewrite latest_cells by assumption. f_equal.
  - now apply flat_trend with (c := c).
  - now rewrite (@flat_rsi_cell c data Hflat).
Qed.

Lemma flat_prices_dashboard_witness :
  dashboard (start_analysis (Returns flat_prices) 20 50 initial_app)
  = Cards Drop Normal.
Proof.
  apply flat_prices_dashboard with (c := 100); [|discriminate].
  apply Forall_forall. intros b Hb. apply in_map_iff in Hb.
  destruct Hb as [d [<- _]]. simpl. reflexivity.
Defined.

(** ** Missing close prices *)

Section MissingFacts.

Variable data : frame.
Hypothesis bounded : no_infinite_price data.

Lemma close_not_infinite (j : nat) :
  is_inf (nth j (close_column data) NaN) = false.
Proof.
  destruct (Nat.lt_ge_cases j (length data)) as [Hj|Hj].
  - unfold close_column.
    rewrite (map_nth Close data (mk_bar 0 NaN 0) j
             : nth j (map Close data) NaN = _).
    apply (proj1 (Forall_forall _ _) bounded). now apply nth_In.
  - rewrite nth_overflow; [reflexivity|].
    unfold close_column. now rewrite length_map.
Qed.

Lemma delta_not_infinite (j : nat) :
  (j < length data)%nat -> is_inf (nth j (delta data) NaN) = false.
Proof.
  intro Hj. unfold delta. destruct j as [|j].
  - now rewrite nth_diff_0.
  - rewrite nth_diff_S by (unfold close_column; now rewrite length_map).
    pose proof (close_not_infinite (S j)) as H1.
    pose proof (close_not_infinite j) as H2.
    destruct (nth (S j) (close_column data) NaN);
      destruct (nth j (close_column data) NaN);
      try discriminate; reflexivity.
Qed.

Lemma gain_term_is_number (j : nat) :
  (j < length data)%nat ->
  nth j (gain_terms data) NaN
  = Fin (number_in (nth j (gain_terms data) NaN)).
Proof.
  intro Hj. rewrite nth_gain_terms by assumption.
  pose proof (delta_not_infinite Hj) as H.
  destruct (nth j (delta data) NaN) as [| | |d]; try discriminate.
  - reflexivity.
  - unfold up. now destruct (fgt (Fin d) (Fin 0)).
Qed.

Lemma loss_term_is_number (j : nat) :
  (j < length data)%nat ->
  nth j (loss_terms data) NaN
  = Fin (number_in (nth j (loss_terms data) NaN)).
Proof.
  intro Hj. rewrite nth_loss_terms by assumption.
  pose proof (delta_not_infinite Hj) as H.
  destruct (nth j (delta data) NaN) as [| | |d]; try discriminate.
  - reflexivity.
  - unfold down. now destruct (flt (Fin d) (Fin 0)).
Qed.

End MissingFacts.

(** X17: a missing close price blanks the moving average at every
    position whose window contains it. *)
Theorem missing_close_blanks_moving_average (data : frame) (p i j : nat) :
  nth j (close_column data) NaN = NaN ->
  (S i - p <= j <= i)%nat -> (i < length data)%nat ->
  nth i (rolling_mean p (close_column data)) NaN = NaN.
Proof.
  intros Hnan Hj Hi.
  assert (Hlen : length (close_column data) = length data)
    by (unfold close_column; apply length_map).
  destruct (Nat.lt_ge_cases (S i) p) as [Hw|Hw];
    [now apply rolling_mean_warm_up|].
  rewrite nth_rolling_mean by lia.
  apply window_mean_missing.
  - rewrite window_at_seq by lia.
    apply in_map_iff. exists j. split; [exact Hnan | apply in_seq; lia].
  - rewrite length_window_at by lia. lia.
Qed.

Lemma missing_close_blanks_moving_average_witness :
  nth 2 (rolling_mean 2 (close_column sample_prices_with_gap)) NaN = NaN.
Proof.
  apply missing_close_blanks_moving_average with (j := 1%nat);
    [reflexivity | simpl; lia | simpl; lia].
Defined.

Lemma usable_not_infinite (data : frame) :
  ordinary_or_missing data -> no_infinite_price data.
Proof.
  unfold ordinary_or_missing, no_infinite_price. apply Forall_impl.
  intros b H. now destruct (Close b).
Qed.

(** X18: a missing close price does not blank the RSI averages.  The two
    differences it spoils are counted as a zero gain and a zero loss, so
    when every close price is of ordinary size or missing and the
    look-back is within the limit, the average gain and the average loss
    are numbers at every position from periods-1 on. *)
Theorem missing_close_counts_as_no_move (data : frame) (periods i : nat) :
  ordinary_or_missing data ->
  (1 <= periods <= window_limit)%nat ->
  (periods <= S i)%nat -> (i < length data)%nat ->
  is_finite (nth i (gain data periods) NaN) = true
  /\ is_finite (nth i (loss data periods) NaN) = true.
Proof.
  intros Hu [Hp _] Hpi Hi. pose proof (usable_not_infinite Hu) as Hb.
  unfold gain, loss. split.
  - rewrite (@rolling_mean_numbers (gain_terms data) periods i
               (fun j => number_in (nth j (gain_terms data) NaN)));
      try assumption; [reflexivity | |].
    + now rewrite gain_terms_map, length_map, length_delta.
    + intros j Hj. apply gain_term_is_number; [assumption | lia].
  - rewrite (@rolling_mean_numbers (loss_terms data) periods i
               (fun j => number_in (nth j (loss_terms data) NaN)));
      try assumption; [reflexivity | |].
    + now rewrite loss_terms_map, length_map, length_delta.
    + intros j Hj. apply loss_term_is_number; [assumption | lia].
Qed.

Lemma missing_close_counts_as_no_move_witness :
  is_finite (nth 2 (gain sample_prices_with_gap 2) NaN) = true
  /\ is_finite (nth 2 (loss sample_prices_with_gap 2) NaN) = true.
Proof.
  apply missing_close_counts_as_no_move;
    try (simpl; unfold window_limit; lia).
  repeat constructor.
Defined.
